(** * Registry transport negotiation

    A shallow embedding of
    [vendor/github.com/google/go-containerregistry/pkg/v1/remote/transport/transport.go]
    ([New], [NewWithContext], [Wrapper]) together with the decorators it
    composes, and the properties of the negotiation that the design
    document states. *)

From Stdlib Require Import ZArith NArith Ascii String.
From stdpp Require Import base option list gmap strings fin_maps.

Local Open Scope Z_scope.

(** ** Values of the Go standard library *)

(** Go's [error] values built by this package are messages. *)
Definition error : Type := string.

(** [http.Header]: a map from header names to their values;
    [Header.Set] replaces whatever was there by the single new value. *)
Abbreviation Header := (gmap string (list string)).

Definition Header_Set (k v : string) (h : Header) : Header := <[k := [v]]> h.

(** [http.Request], with the URL's scheme, host and path as fields. *)
Record Request := {
  Method : string;
  URL_Scheme : string;
  URL_Host : string;
  URL_Path : string;
  ReqHeader : Header;
  ReqBody : string
}.

Record Response := {
  StatusCode : Z;
  RespHeader : Header;
  RespBody : string
}.

Definition StatusUnauthorized : Z := 401.

Definition with_header (k v : string) (r : Request) : Request :=
  {| Method := Method r; URL_Scheme := URL_Scheme r; URL_Host := URL_Host r;
     URL_Path := URL_Path r; ReqHeader := Header_Set k v (ReqHeader r);
     ReqBody := ReqBody r |}.

Definition with_scheme (s : string) (r : Request) : Request :=
  {| Method := Method r; URL_Scheme := s; URL_Host := URL_Host r;
     URL_Path := URL_Path r; ReqHeader := ReqHeader r; ReqBody := ReqBody r |}.

(** [fmt]'s [%v] of a [map[string]string]: [map[k1:v1 k2:v2]], keys in
    increasing order. *)
Fixpoint insert_by_key (kv : string * string) (l : list (string * string))
  : list (string * string) :=
  match l with
  | [] => [kv]
  | kv' :: l' =>
      if String.leb (fst kv) (fst kv') then kv :: l
      else kv' :: insert_by_key kv l'
  end.

Definition sort_by_key (l : list (string * string)) : list (string * string) :=
  foldr insert_by_key [] l.

Fixpoint join_fields (l : list (string * string)) : string :=
  match l with
  | [] => ""
  | [(k, v)] => k +:+ ":" +:+ v
  | (k, v) :: l' => k +:+ ":" +:+ v +:+ " " +:+ join_fields l'
  end.

Definition fmt_map (m : gmap string string) : string :=
  "map[" +:+ join_fields (sort_by_key (map_to_list m)) +:+ "]".

(** ** The package's data *)

(** [name.Registry], seen through the two methods the negotiation calls:
    [RegistryStr()] and [String()]. *)
Record Registry := {
  RegistryStr : string;
  Registry_String : string
}.

(** [authn.Authenticator]: a capability named by an identifier; what it
    answers is decided by the environment (see [Authorization] below). *)
Definition Authenticator : Type := nat.

(** The kind of a challenge, a string as in [ping.go]. *)
Definition challenge : Type := string.

(** Modelled from the spec: the constants [anonymous], [basic] and
    [bearer] are declared in [ping.go], which is not among the sources;
    the design document names the three kinds [none], [basic] and
    [bearer]. *)
Definition anonymous : challenge := "none".
Definition basic : challenge := "basic".
Definition bearer : challenge := "bearer".

(** The result of the probe ([pingResp]). *)
Record pingResp := {
  pr_challenge : challenge;
  pr_parameters : gmap string string;
  pr_scheme : string
}.

(** The state of a bearer decorator, with the fields [NewWithContext]
    sets ([inner], [basic], [realm], [registry], [service], [scopes],
    [scheme]) and the cached token [bearer]. The cached token is the
    only field that changes after construction; it lives in the store of
    the world at the address [bt_bearer], as the decorator is shared by
    pointer. *)
Record bearerTransport (RT : Type) := {
  bt_inner : RT;
  bt_basic : Authenticator;
  bt_bearer : nat;
  bt_realm : string;
  bt_registry : Registry;
  bt_service : string;
  bt_scopes : list string;
  bt_scheme : string
}.
Arguments bt_inner {RT} _.
Arguments bt_basic {RT} _.
Arguments bt_bearer {RT} _.
Arguments bt_realm {RT} _.
Arguments bt_registry {RT} _.
Arguments bt_service {RT} _.
Arguments bt_scopes {RT} _.
Arguments bt_scheme {RT} _.

(** [http.RoundTripper]: the implementations this package knows, and
    [External] for any implementation supplied from outside it. *)
#[warnings="-register-all"]
Inductive RoundTripper :=
| External (id : nat)
| userAgentTransport (inner : RoundTripper) (ua : string)
| schemeTransport (scheme : string) (registry : Registry) (inner : RoundTripper)
| basicTransport (inner : RoundTripper) (auth : Authenticator) (target : string)
| bearerTransportPtr (bt : bearerTransport RoundTripper)
| Wrapper (inner : RoundTripper).

(** The type assertion of [t] to a pointer to [userAgentTransport]: it
    looks at the outermost implementation only. *)
Definition is_userAgentTransport (t : RoundTripper) : bool :=
  match t with
  | userAgentTransport _ _ => true
  | _ => false
  end.

(** Modelled from the spec: [NewUserAgent] is defined in [useragent.go],
    which is not among the sources; it builds a user-agent decorator
    around [inner]. *)
Definition NewUserAgent (inner : RoundTripper) (ua : string) : RoundTripper :=
  userAgentTransport inner ua.

(** The request of a token exchange: realm, service, scopes and the
    Basic credentials when the authenticator supplies them. *)
Record TokenRequest := {
  tr_realm : string;
  tr_service : string;
  tr_scopes : list string;
  tr_credentials : option (string * string)
}.

(** The two errors [NewWithContext] builds itself. *)
Definition MalformedChallenge (parameters : gmap string string) : error :=
  "malformed www-authenticate, missing realm: " +:+ fmt_map parameters.

Definition UnrecognizedChallenge (c : challenge) : error :=
  "unrecognized challenge: " +:+ c.

(** Modelled from the spec: the error of the Basic decorator when the
    authenticator cannot produce credentials ([basic.go] is not among the
    sources). *)
Definition AuthUnavailable : error := "AuthUnavailable".

(** [encoding/base64], the standard encoding with padding. *)
Definition base64_alphabet : string :=
  "ABCDEFGHIJKLMNOPQRSTUVWXYZabcdefghijklmnopqrstuvwxyz0123456789+/".

Definition base64_digit (n : N) : ascii :=
  default "="%char (String.get (N.to_nat (n mod 64)%N) base64_alphabet).

Fixpoint base64_bytes (l : list N) : string :=
  match l with
  | [] => ""
  | [a] =>
      let n := (a * 65536)%N in
      String (base64_digit (n / 262144)) (String (base64_digit (n / 4096)) "==")
  | [a; b] =>
      let n := (a * 65536 + b * 256)%N in
      String (base64_digit (n / 262144)) (String (base64_digit (n / 4096))
        (String (base64_digit (n / 64)) "="))
  | a :: b :: c :: l' =>
      let n := (a * 65536 + b * 256 + c)%N in
      String (base64_digit (n / 262144)) (String (base64_digit (n / 4096))
        (String (base64_digit (n / 64)) (String (base64_digit n)
          (base64_bytes l'))))
  end.

Definition base64 (s : string) : string :=
  base64_bytes (N_of_ascii <$> list_ascii_of_string s).

(** ** The environment

    The network and the credential store are outside the package. Their
    state is a value of some type [Net]. The world adds to it the cached
    tokens of the bearer decorators allocated so far ([None]: allocated,
    no token set yet) and the token exchanges issued so far, oldest
    first. *)
Record World (Net : Type) := {
  net : Net;
  tokens : gmap nat (option string);
  exchanges : list TokenRequest
}.
Arguments net {Net} _.
Arguments tokens {Net} _.
Arguments exchanges {Net} _.

(** What the package consumes and this file takes as given.
    - [send]: the [RoundTrip] of an implementation supplied from outside;
    - [Authorization]: [Authenticator.Authorization], reduced to the
      Basic credentials it yields, or [None] when it cannot produce any;
    - [exchange]: the token server, answering an exchange with a token or
      failing;
    - [ping] and [Canonical]: the probe and [challenge.Canonical], both
      defined in [ping.go], which is not among the sources; the probe
      yields a probe result or an error. *)
Class Env := {
  Net : Type;
  send : nat -> Request -> Net -> (Response + error) * Net;
  Authorization : Authenticator -> Net -> option (string * string) * Net;
  exchange : TokenRequest -> Net -> (string + error) * Net;
  ping : Registry -> RoundTripper -> World Net
         -> (pingResp + error) * World Net;
  Canonical : challenge -> challenge
}.

Section Transport.

Context `{Env}.

Definition set_net (n : Net) (w : World Net) : World Net :=
  {| net := n; tokens := tokens w; exchanges := exchanges w |}.

(** ** The decorators *)

(** Allocation of the token cell of a new bearer decorator. *)
Definition alloc_bearer (w : World Net) : nat * World Net :=
  let a := fresh (dom (tokens w)) in
  (a, {| net := net w; tokens := <[a := None]> (tokens w);
         exchanges := exchanges w |}).

(** The token a bearer decorator attaches: the cached one, and Go's
    zero value, the empty string, while none is set. *)
Definition cached_token (w : World Net) (a : nat) : string :=
  match tokens w !! a with
  | Some (Some tok) => tok
  | _ => ""
  end.

(** Modelled from the spec: [bearerTransport.refresh] is defined in
    [bearer.go], which is not among the sources. One credential exchange
    with the decorator's realm, service and scopes, with the Basic
    credentials of the authenticator when it supplies them and anonymous
    otherwise; on success the cached token is replaced, on failure the
    error is returned and the cached token is left as it was. *)
Definition refresh (bt : bearerTransport RoundTripper) (w : World Net)
  : option error * World Net :=
  let '(cred, n1) := Authorization (bt_basic bt) (net w) in
  let req := {| tr_realm := bt_realm bt; tr_service := bt_service bt;
                tr_scopes := bt_scopes bt; tr_credentials := cred |} in
  let '(r, n2) := exchange req n1 in
  match r with
  | inl tok =>
      (None, {| net := n2; tokens := <[bt_bearer bt := Some tok]> (tokens w);
                exchanges := exchanges w ++ [req] |})
  | inr e =>
      (Some e, {| net := n2; tokens := tokens w;
                  exchanges := exchanges w ++ [req] |})
  end.

(** Modelled from the spec: the values of the [Authorization] header,
    [Bearer <token>] and [Basic <base64(user:password)>]. *)
Definition bearer_header (tok : string) : string := "Bearer " +:+ tok.

Definition basic_header (user pass : string) : string :=
  "Basic " +:+ base64 (user +:+ ":" +:+ pass).

(** The request a bearer decorator hands to its inner transport: the
    caller's, with the token cached at that moment attached. *)
Definition bearer_request (bt : bearerTransport RoundTripper) (w : World Net)
    (in_ : Request) : Request :=
  with_header "Authorization"
    (bearer_header (cached_token w (bt_bearer bt))) in_.

(** The signature of [RoundTrip]: a request in, a response or an error
    out, the world changed on the way. *)
Definition RoundTripFn : Type :=
  Request -> World Net -> (Response + error) * World Net.

(** Each method below takes the [RoundTrip] of the receiver's inner
    transport as [inner_RoundTrip]. *)

(** [Wrapper.RoundTrip]: [return w.inner.RoundTrip(in)]. *)
Definition Wrapper_RoundTrip (inner_RoundTrip : RoundTripFn) : RoundTripFn :=
  fun in_ w => inner_RoundTrip in_ w.

(** Modelled from the spec: [userAgentTransport.RoundTrip] is defined in
    [useragent.go], which is not among the sources. It tags the request
    with the decorator's user agent and delegates. *)
Definition userAgentTransport_RoundTrip (ua : string)
    (inner_RoundTrip : RoundTripFn) : RoundTripFn :=
  fun in_ w => inner_RoundTrip (with_header "User-Agent" ua in_) w.

(** Modelled from the spec: [schemeTransport.RoundTrip] is defined in
    [scheme.go], which is not among the sources. On every request it
    rewrites the scheme to the one discovered by the probe, leaves path,
    headers and body as they are, delegates, and returns the response
    or failure of the inner transport as it is. *)
Definition schemeTransport_RoundTrip (scheme : string)
    (inner_RoundTrip : RoundTripFn) : RoundTripFn :=
  fun in_ w => inner_RoundTrip (with_scheme scheme in_) w.

(** Modelled from the spec: [basicTransport.RoundTrip] is defined in
    [basic.go], which is not among the sources. On every request it asks
    the authenticator for the current credentials, attaches the Basic
    header and delegates; when the authenticator cannot produce
    credentials it fails with [AuthUnavailable], without a retry. *)
Definition basicTransport_RoundTrip (auth : Authenticator)
    (inner_RoundTrip : RoundTripFn) : RoundTripFn :=
  fun in_ w =>
    let '(cred, n) := Authorization auth (net w) in
    match cred with
    | Some (user, pass) =>
        inner_RoundTrip
          (with_header "Authorization" (basic_header user pass) in_)
          (set_net n w)
    | None => (inr AuthUnavailable, set_net n w)
    end.

(** Modelled from the spec: [bearerTransport.RoundTrip] is defined in
    [bearer.go], which is not among the sources. It attaches the cached
    token and delegates; a failure of the inner transport and a response
    that is not a 401 are returned as they are; on a 401 it repeats the
    exchange and, if that succeeds, retries the request once with the
    new token and returns whatever the retry yields; if the exchange
    fails, its error is returned instead. *)
Definition bearerTransport_RoundTrip (bt : bearerTransport RoundTripper)
    (inner_RoundTrip : RoundTripFn) : RoundTripFn :=
  fun in_ w =>
    let sendRequest (w0 : World Net) :=
      inner_RoundTrip (bearer_request bt w0 in_) w0 in
    match sendRequest w with
    | (inr e, w1) => (inr e, w1)
    | (inl res, w1) =>
        if StatusCode res =? StatusUnauthorized then
          match refresh bt w1 with
          | (Some e, w2) => (inr e, w2)
          | (None, w2) => sendRequest w2
          end
        else (inl res, w1)
    end.

(** [RoundTrip] on the interface: the method of the implementation at
    hand, applied to the [RoundTrip] of its inner transport; an external
    implementation is asked through [send]. *)
Fixpoint RoundTrip (t : RoundTripper) : RoundTripFn :=
  match t with
  | External id =>
      fun in_ w => let '(r, n) := send id in_ (net w) in (r, set_net n w)
  | userAgentTransport inner ua =>
      userAgentTransport_RoundTrip ua (RoundTrip inner)
  | schemeTransport scheme _ inner =>
      schemeTransport_RoundTrip scheme (RoundTrip inner)
  | basicTransport inner auth _ =>
      basicTransport_RoundTrip auth (RoundTrip inner)
  | bearerTransportPtr bt =>
      bearerTransport_RoundTrip bt (RoundTrip (bt_inner bt))
  | Wrapper inner =>
      Wrapper_RoundTrip (RoundTrip inner)
  end.

(** ** The negotiation *)

(** [NewWithContext]. The pair of results is the source's
    [(http.RoundTripper, error)], each of them possibly [nil]. The
    context is passed on to [ping] and [refresh] only and cancellation
    is not modelled, so it is left out. The decorators are built as
    values; only the Bearer decorator, whose token changes later, gets a
    cell in the store. *)
Definition NewWithContext (reg : Registry) (auth : Authenticator)
    (t : RoundTripper) (scopes : list string) (w : World Net)
  : (option RoundTripper * option error) * World Net :=
  match ping reg t w with
  | (inr err, w1) => ((None, Some err), w1)
  | (inl pr, w1) =>
      let t := if is_userAgentTransport t then t else NewUserAgent t "" in
      let t := schemeTransport (pr_scheme pr) reg t in
      let c := Canonical (pr_challenge pr) in
      if decide (c = anonymous) then
        ((Some (Wrapper t), None), w1)
      else if decide (c = basic) then
        ((Some (Wrapper (basicTransport t auth (RegistryStr reg))), None), w1)
      else if decide (c = bearer) then
        match pr_parameters pr !! "realm" with
        | None => ((None, Some (MalformedChallenge (pr_parameters pr))), w1)
        | Some realm =>
            let service :=
              match pr_parameters pr !! "service" with
              | Some service => service
              | None => Registry_String reg
              end in
            let '(a, w2) := alloc_bearer w1 in
            let bt := {| bt_inner := t; bt_basic := auth; bt_bearer := a;
                         bt_realm := realm; bt_registry := reg;
                         bt_service := service; bt_scopes := scopes;
                         bt_scheme := pr_scheme pr |} in
            match refresh bt w2 with
            | (Some err, w3) => ((None, Some err), w3)
            | (None, w3) => ((Some (Wrapper (bearerTransportPtr bt)), None), w3)
            end
        end
      else
        ((None, Some (UnrecognizedChallenge (pr_challenge pr))), w1)
  end.

(** [New]: the same, with the background context. *)
Definition New (reg : Registry) (auth : Authenticator) (t : RoundTripper)
    (scopes : list string) (w : World Net) :=
  NewWithContext reg auth t scopes w.

End Transport.

(** ** Shapes of a negotiated transport

    [negotiated sel rt]: [rt] is a [Wrapper] around the selector [sel]
    itself or around a Basic or Bearer decorator whose inner transport is
    [sel]. *)
Inductive negotiated (sel : RoundTripper) : RoundTripper -> Prop :=
| negotiated_anonymous :
    negotiated sel (Wrapper sel)
| negotiated_basic auth target :
    negotiated sel (Wrapper (basicTransport sel auth target))
| negotiated_bearer bt :
    bt_inner bt = sel -> negotiated sel (Wrapper (bearerTransportPtr bt)).

(** The transport [NewWithContext] hands to the scheme selector. *)
Definition with_user_agent (t : RoundTripper) : RoundTripper :=
  if is_userAgentTransport t then t else NewUserAgent t "".

(** The decorator [NewWithContext] builds for a Bearer challenge with a
    realm, its token cell at the next free address of the world. *)
Definition seed_transport `{Env} (reg : Registry) (auth : Authenticator)
    (t : RoundTripper) (scopes : list string) (pr : pingResp)
    (realm : string) (w1 : World Net)
  : bearerTransport RoundTripper :=
  {| bt_inner := schemeTransport (pr_scheme pr) reg (with_user_agent t);
     bt_basic := auth;
     bt_bearer := fresh (dom (tokens w1));
     bt_realm := realm;
     bt_registry := reg;
     bt_service := default (Registry_String reg) (pr_parameters pr !! "service");
     bt_scopes := scopes;
     bt_scheme := pr_scheme pr |}.


(** ** A scripted environment

    One external transport and one token server that answer from a
    script, registries whose probe result is fixed by their name, and
    lower-casing as the canonical form of a challenge. *)
Module Demo.

Record Script := {
  sent : list Request;
  replies : list (Response + error);
  token_replies : list (string + error)
}.

Definition reply (code : Z) : Response :=
  {| StatusCode := code; RespHeader := ∅; RespBody := "" |}.

(** The external transport records the request and gives its next
    scripted reply, a 200 once the script is exhausted. *)
Definition demo_send (id : nat) (r : Request) (n : Script)
  : (Response + error) * Script :=
  match replies n with
  | [] =>
      (inl (reply 200),
       {| sent := sent n ++ [r]; replies := [];
          token_replies := token_replies n |})
  | x :: xs =>
      (x, {| sent := sent n ++ [r]; replies := xs;
             token_replies := token_replies n |})
  end.

(** Authenticator [0] is anonymous, the others yield [u]/[p]. *)
Definition demo_Authorization (a : Authenticator) (n : Script)
  : option (string * string) * Script :=
  (match a with O => None | S _ => Some ("u", "p") end, n).

(** The token server gives its next scripted reply and fails once the
    script is exhausted. *)
Definition demo_exchange (tr : TokenRequest) (n : Script)
  : (string + error) * Script :=
  match token_replies n with
  | [] => (inr "token server unreachable", n)
  | x :: xs =>
      (x, {| sent := sent n; replies := replies n; token_replies := xs |})
  end.

Definition lower_ascii (c : ascii) : ascii :=
  let n := N_of_ascii c in
  if ((65 <=? n) && (n <=? 90))%N then ascii_of_N (n + 32) else c.

Fixpoint ToLower (s : string) : string :=
  match s with
  | EmptyString => EmptyString
  | String c s' => String (lower_ascii c) (ToLower s')
  end.

Definition probe_open : pingResp :=
  {| pr_challenge := "none"; pr_parameters := ∅; pr_scheme := "https" |}.

Definition probe_basic : pingResp :=
  {| pr_challenge := "Basic"; pr_parameters := {[ "realm" := "registry" ]};
     pr_scheme := "https" |}.

Definition probe_bearer : pingResp :=
  {| pr_challenge := "Bearer";
     pr_parameters := {[ "realm" := "https://auth.example/token";
                         "service" := "registry.example" ]};
     pr_scheme := "https" |}.

Definition probe_plain : pingResp :=
  {| pr_challenge := "Bearer";
     pr_parameters := {[ "realm" := "http://auth.example/token" ]};
     pr_scheme := "http" |}.

Definition probe_norealm : pingResp :=
  {| pr_challenge := "Bearer";
     pr_parameters := {[ "service" := "registry.example";
                         "scope" := "repository:foo:pull" ]};
     pr_scheme := "https" |}.

Definition probe_digest : pingResp :=
  {| pr_challenge := "Digest"; pr_parameters := {[ "realm" := "registry" ]};
     pr_scheme := "https" |}.

Definition probe (host : string) : pingResp + error :=
  if decide (host = "open.example") then inl probe_open
  else if decide (host = "basic.example") then inl probe_basic
  else if decide (host = "bearer.example") then inl probe_bearer
  else if decide (host = "plain.example") then inl probe_plain
  else if decide (host = "norealm.example") then inl probe_norealm
  else if decide (host = "digest.example") then inl probe_digest
  else inr "ping failed".

Definition demo_ping (reg : Registry) (t : RoundTripper) (w : World Script)
  : (pingResp + error) * World Script :=
  (probe (RegistryStr reg), w).

Definition env : Env :=
  {| Net := Script; send := demo_send; Authorization := demo_Authorization;
     exchange := demo_exchange; ping := demo_ping; Canonical := ToLower |}.

Definition registry (host : string) : Registry :=
  {| RegistryStr := host; Registry_String := host |}.

(** A world with no decorator allocated and no exchange issued, the
    external transport and the token server scripted with [rs] and [ts]. *)
Definition world (rs : list (Response + error)) (ts : list (string + error))
  : World (@Net env) :=
  {| net := {| sent := []; replies := rs; token_replies := ts |};
     tokens := ∅; exchanges := [] |}.

Definition calm : World (@Net env) := world [] [].

Definition pull : list string := ["repository:foo:pull"].

Definition get (path : string) : Request :=
  {| Method := "GET"; URL_Scheme := "http"; URL_Host := "registry.example";
     URL_Path := path; ReqHeader := ∅; ReqBody := "" |}.

(** A bearer decorator over the external transport, its token cell at
    address [0]. *)
Definition bt0 : bearerTransport RoundTripper :=
  {| bt_inner := External 0; bt_basic := 1%nat; bt_bearer := 0%nat;
     bt_realm := "https://auth.example/token";
     bt_registry := registry "bearer.example";
     bt_service := "registry.example";
     bt_scopes := pull; bt_scheme := "https" |}.

End Demo.

(** ** A replayed probe

    An environment whose state is the list of the results the next
    probes will find; the external transport answers 200, the
    authenticator is anonymous and the token server always grants
    [token]. *)
Module Replay.

Definition replay_ping (reg : Registry) (t : RoundTripper)
    (w : World (list pingResp))
  : (pingResp + error) * World (list pingResp) :=
  match net w with
  | [] => (inr "ping failed", w)
  | pr :: rest =>
      (inl pr, {| net := rest; tokens := tokens w; exchanges := exchanges w |})
  end.

Definition env : Env :=
  {| Net := list pingResp;
     send := fun _ _ n => (inl (Demo.reply 200), n);
     Authorization := fun _ n => (None, n);
     exchange := fun _ n => (inl "token", n);
     ping := replay_ping;
     Canonical := Demo.ToLower |}.

Definition world (prs : list pingResp) : World (@Net env) :=
  {| net := prs; tokens := ∅; exchanges := [] |}.

(** The Bearer challenge of [Demo.probe_bearer], spelled in capitals. *)
Definition probe_shouting : pingResp :=
  {| pr_challenge := "BEARER";
     pr_parameters := pr_parameters Demo.probe_bearer;
     pr_scheme := pr_scheme Demo.probe_bearer |}.

End Replay.

(** * Properties *)

Section Properties.

Context `{Env}.

Implicit Types (reg : Registry) (auth : Authenticator) (t rt : RoundTripper).
Implicit Types (scopes : list string) (w : World Net) (pr : pingResp).
Implicit Types (bt : bearerTransport RoundTripper) (req : Request).

(** ** The token exchange *)

Lemma refresh_exchanges bt w :
  exists cred,
    exchanges (refresh bt w).2
    = exchanges w ++ [ {| tr_realm := bt_realm bt; tr_service := bt_service bt;
                          tr_scopes := bt_scopes bt; tr_credentials := cred |} ].
Proof.
  unfold refresh.
  destruct (Authorization (bt_basic bt) (net w)) as [cred n1].
  exists cred.
  destruct (exchange _ n1) as [[tok|e] n2]; reflexivity.
Qed.

Lemma refresh_success_token bt w w' :
  refresh bt w = (None, w') ->
  exists tok, tokens w' !! bt_bearer bt = Some (Some tok)
              /\ cached_token w' (bt_bearer bt) = tok.
Proof.
  unfold refresh.
  destruct (Authorization (bt_basic bt) (net w)) as [cred n1].
  destruct (exchange _ n1) as [[tok|e] n2]; intros Heq; [|discriminate].
  injection Heq as <-. exists tok. unfold cached_token. simpl.
  rewrite lookup_insert_eq. done.
Qed.

Lemma refresh_failure_tokens bt w e w' :
  refresh bt w = (Some e, w') -> tokens w' = tokens w.
Proof.
  unfold refresh.
  destruct (Authorization (bt_basic bt) (net w)) as [cred n1].
  destruct (exchange _ n1) as [[tok|e'] n2]; intros Heq; [discriminate|].
  by injection Heq as _ <-.
Qed.

(** ** The branches of the negotiation *)

Lemma kinds_distinct :
  anonymous <> basic /\ anonymous <> bearer /\ basic <> bearer.
Proof. repeat split; discriminate. Qed.

Lemma NewWithContext_ping_error reg auth t scopes w err w1 :
  ping reg t w = (inr err, w1) ->
  NewWithContext reg auth t scopes w = ((None, Some err), w1).
Proof. intros Hp. unfold NewWithContext. by rewrite Hp. Qed.

Lemma NewWithContext_none reg auth t scopes w pr w1 :
  ping reg t w = (inl pr, w1) ->
  Canonical (pr_challenge pr) = anonymous ->
  NewWithContext reg auth t scopes w
  = ((Some (Wrapper (schemeTransport (pr_scheme pr) reg (with_user_agent t))),
      None), w1).
Proof.
  intros Hp Hc. unfold NewWithContext. rewrite Hp, Hc.
  by rewrite decide_True.
Qed.

Lemma NewWithContext_basic reg auth t scopes w pr w1 :
  ping reg t w = (inl pr, w1) ->
  Canonical (pr_challenge pr) = basic ->
  NewWithContext reg auth t scopes w
  = ((Some (Wrapper
        (basicTransport (schemeTransport (pr_scheme pr) reg (with_user_agent t))
           auth (RegistryStr reg))), None), w1).
Proof.
  intros Hp Hc. unfold NewWithContext. rewrite Hp, Hc.
  rewrite decide_False by discriminate. by rewrite decide_True.
Qed.

Lemma NewWithContext_bearer reg auth t scopes w pr w1 realm :
  ping reg t w = (inl pr, w1) ->
  Canonical (pr_challenge pr) = bearer ->
  pr_parameters pr !! "realm" = Some realm ->
  let bt := seed_transport reg auth t scopes pr realm w1 in
  NewWithContext reg auth t scopes w
  = match refresh bt (alloc_bearer w1).2 with
    | (Some err, w3) => ((None, Some err), w3)
    | (None, w3) => ((Some (Wrapper (bearerTransportPtr bt)), None), w3)
    end.
Proof.
  intros Hp Hc Hr. unfold NewWithContext. rewrite Hp, Hc, Hr.
  rewrite !decide_False by discriminate. rewrite decide_True by done.
  unfold seed_transport, alloc_bearer. simpl.
  by destruct (pr_parameters pr !! "service").
Qed.

Lemma NewWithContext_negotiated reg auth t scopes w pr w1 rt oerr w' :
  ping reg t w = (inl pr, w1) ->
  NewWithContext reg auth t scopes w = ((Some rt, oerr), w') ->
  negotiated (schemeTransport (pr_scheme pr) reg (with_user_agent t)) rt
  /\ oerr = None.
Proof.
  intros Hp. unfold NewWithContext. rewrite Hp.
  fold (with_user_agent t).
  repeat case_decide.
  - intros [= <- <- _]. split; [constructor | done].
  - intros [= <- <- _]. split; [constructor | done].
  - destruct (pr_parameters pr !! "realm") as [realm|]; [|discriminate].
    unfold alloc_bearer.
    match goal with |- context [refresh ?b ?w2] =>
      destruct (refresh b w2) as [[err|] w3] end; [discriminate|].
    intros [= <- <- _]. split; [by constructor | done].
  - discriminate.
Qed.

(** ** Requests under the decorators *)

Lemma with_header_other k v k' req :
  k <> k' -> ReqHeader (with_header k v req) !! k' = ReqHeader req !! k'.
Proof. intros Hne. unfold with_header, Header_Set. simpl. by rewrite lookup_insert_ne. Qed.

Lemma negotiated_scheme_irrelevant s0 reg base rt :
  negotiated (schemeTransport s0 reg base) rt ->
  forall s req w, RoundTrip rt (with_scheme s req) w = RoundTrip rt req w.
Proof.
  intros Hn s req w. inversion Hn as [|a tg|bt Hin]; subst.
  - reflexivity.
  - simpl. unfold Wrapper_RoundTrip, basicTransport_RoundTrip.
    destruct (Authorization a (net w)) as [[[user pass]|] n]; reflexivity.
  - destruct bt as [i b a r g sv sc sh]. simpl in Hin. subst i. reflexivity.
Qed.

(** ** The claims *)

(** C1. When the probe returns a Bearer challenge whose parameters have
    no [realm], [NewWithContext] returns no transport and the error
    "malformed www-authenticate, missing realm". *)
Theorem NewWithContext_missing_realm reg auth t scopes w pr w1 :
  ping reg t w = (inl pr, w1) ->
  Canonical (pr_challenge pr) = bearer ->
  pr_parameters pr !! "realm" = None ->
  NewWithContext reg auth t scopes w
  = ((None, Some (MalformedChallenge (pr_parameters pr))), w1).
Proof.
  intros Hp Hc Hr. unfold NewWithContext. rewrite Hp, Hc, Hr.
  rewrite !decide_False by discriminate. by rewrite decide_True.
Qed.

(** C2. When the probe returns a Bearer challenge with a [realm],
    [NewWithContext] calls [refresh] once on the decorator it built,
    which issues exactly one token exchange; if it fails, its error is
    returned with no transport; if it succeeds, the [Wrapper] around
    that decorator is returned, and its token is set in the world the
    caller receives. *)
Theorem NewWithContext_seed_exchange reg auth t scopes w pr w1 realm :
  ping reg t w = (inl pr, w1) ->
  Canonical (pr_challenge pr) = bearer ->
  pr_parameters pr !! "realm" = Some realm ->
  let bt := seed_transport reg auth t scopes pr realm w1 in
  let out := NewWithContext reg auth t scopes w in
  (exists treq,
      exchanges out.2 = exchanges w1 ++ [treq]
      /\ tr_realm treq = realm /\ tr_scopes treq = scopes)
  /\ match refresh bt (alloc_bearer w1).2 with
     | (Some err, w3) => out = ((None, Some err), w3)
     | (None, w3) =>
         out = ((Some (Wrapper (bearerTransportPtr bt)), None), w3)
         /\ exists tok, tokens w3 !! bt_bearer bt = Some (Some tok)
                        /\ cached_token w3 (bt_bearer bt) = tok
     end.
Proof.
  intros Hp Hc Hr bt out.
  assert (Hout : out = match refresh bt (alloc_bearer w1).2 with
                       | (Some err, w3) => ((None, Some err), w3)
                       | (None, w3) =>
                           ((Some (Wrapper (bearerTransportPtr bt)), None), w3)
                       end)
    by exact (NewWithContext_bearer reg auth t scopes w pr w1 realm Hp Hc Hr).
  split.
  - destruct (refresh_exchanges bt (alloc_bearer w1).2) as [cred Hex].
    eexists. rewrite Hout. split.
    + destruct (refresh bt (alloc_bearer w1).2) as [[err|] w3]; exact Hex.
    + done.
  - destruct (refresh bt (alloc_bearer w1).2) as [[err|] w3] eqn:Href.
    + exact Hout.
    + split; [exact Hout|]. exact (refresh_success_token _ _ _ Href).
Qed.


(** C4. When the probe finds no challenge, [NewWithContext] returns the
    [Wrapper] around the scheme selector, with no authentication
    decorator; a request sent through it reaches the supplied transport
    with its scheme rewritten and, when the user-agent decorator was
    added, its [User-Agent] set: its [Authorization] header, like every
    other header, is the caller's. *)
Theorem NewWithContext_anonymous_adds_no_authentication
    reg auth t scopes w pr w1 :
  ping reg t w = (inl pr, w1) ->
  Canonical (pr_challenge pr) = anonymous ->
  let rt := Wrapper (schemeTransport (pr_scheme pr) reg (with_user_agent t)) in
  NewWithContext reg auth t scopes w = ((Some rt, None), w1)
  /\ forall req w0,
       let out :=
         (if is_userAgentTransport t then id else with_header "User-Agent" "")
           (with_scheme (pr_scheme pr) req) in
       RoundTrip rt req w0 = RoundTrip t out w0
       /\ ReqHeader out !! "Authorization" = ReqHeader req !! "Authorization"
       /\ forall k, k <> "User-Agent" -> ReqHeader out !! k = ReqHeader req !! k.
Proof.
  intros Hp Hc rt. split; [by apply NewWithContext_none|].
  intros req w0 out. subst rt out. unfold with_user_agent.
  destruct (is_userAgentTransport t); simpl.
  - done.
  - split; [reflexivity|]. split.
    + by apply with_header_other.
    + intros k Hk. by apply with_header_other.
Qed.

(** C5. Every transport [NewWithContext] returns is a [Wrapper] whose
    requests go through one scheme selector, configured with the scheme
    of the probe, either directly or under the Basic or Bearer decorator;
    the selector hands its inner transport the request with the probed
    scheme, and the scheme of the caller's request has no influence on
    what the returned transport does. *)
Theorem NewWithContext_scheme_selected reg auth t scopes w pr w1 rt oerr w' :
  ping reg t w = (inl pr, w1) ->
  NewWithContext reg auth t scopes w = ((Some rt, oerr), w') ->
  exists base,
    let sel := schemeTransport (pr_scheme pr) reg base in
    negotiated sel rt
    /\ (forall req w0,
           RoundTrip sel req w0
           = RoundTrip base (with_scheme (pr_scheme pr) req) w0
           /\ URL_Scheme (with_scheme (pr_scheme pr) req) = pr_scheme pr)
    /\ (forall s req w0,
           RoundTrip rt (with_scheme s req) w0 = RoundTrip rt req w0).
Proof.
  intros Hp Hnew.
  destruct (NewWithContext_negotiated _ _ _ _ _ _ _ _ _ _ Hp Hnew) as [Hn _].
  exists (with_user_agent t). simpl. split; [exact Hn|]. split.
  - intros req w0. split; reflexivity.
  - exact (negotiated_scheme_irrelevant _ _ _ _ Hn).
Qed.

(** C6. When the canonical kind of the probed challenge is neither
    [none] nor [basic] nor [bearer], [NewWithContext] returns no transport
    and the error "unrecognized challenge". *)
Theorem NewWithContext_unrecognized reg auth t scopes w pr w1 :
  ping reg t w = (inl pr, w1) ->
  Canonical (pr_challenge pr) <> anonymous ->
  Canonical (pr_challenge pr) <> basic ->
  Canonical (pr_challenge pr) <> bearer ->
  NewWithContext reg auth t scopes w
  = ((None, Some (UnrecognizedChallenge (pr_challenge pr))), w1).
Proof.
  intros Hp Ha Hb Hc. unfold NewWithContext. rewrite Hp.
  by rewrite !decide_False.
Qed.

(** C7. For a Bearer challenge with a realm, the decorator that is
    built, refreshed, and returned when the refresh succeeds, has as
    service the [service] parameter of the challenge when there is one,
    and the registry's [String()] otherwise; its other fields are the
    realm, the scopes, the authenticator, the registry, the probed scheme
    and the scheme selector. *)
Theorem NewWithContext_bearer_service reg auth t scopes w pr w1 realm :
  ping reg t w = (inl pr, w1) ->
  Canonical (pr_challenge pr) = bearer ->
  pr_parameters pr !! "realm" = Some realm ->
  exists bt w2,
    (pr_parameters pr !! "service" = None ->
     bt_service bt = Registry_String reg)
    /\ (forall service, pr_parameters pr !! "service" = Some service ->
                        bt_service bt = service)
    /\ (bt_realm bt = realm /\ bt_scopes bt = scopes /\ bt_basic bt = auth
        /\ bt_registry bt = reg /\ bt_scheme bt = pr_scheme pr
        /\ bt_inner bt
           = schemeTransport (pr_scheme pr) reg (with_user_agent t))
    /\ NewWithContext reg auth t scopes w
       = match refresh bt w2 with
         | (Some err, w3) => ((None, Some err), w3)
         | (None, w3) => ((Some (Wrapper (bearerTransportPtr bt)), None), w3)
         end.
Proof.
  intros Hp Hc Hr.
  exists (seed_transport reg auth t scopes pr realm w1), (alloc_bearer w1).2.
  split; [|split; [|split]].
  - intros Hs. simpl. by rewrite Hs.
  - intros service Hs. simpl. by rewrite Hs.
  - done.
  - by apply NewWithContext_bearer.
Qed.

(** C8. The transport under the scheme selector of a returned transport
    is the supplied one itself when that is a user-agent decorator, and
    one new user-agent decorator around the supplied one when it is
    not. *)
Theorem NewWithContext_user_agent_once reg auth t scopes w pr w1 rt oerr w' :
  ping reg t w = (inl pr, w1) ->
  NewWithContext reg auth t scopes w = ((Some rt, oerr), w') ->
  exists base,
    negotiated (schemeTransport (pr_scheme pr) reg base) rt
    /\ is_userAgentTransport base = true
    /\ (is_userAgentTransport t = true -> base = t)
    /\ (is_userAgentTransport t = false ->
        base = NewUserAgent t "" /\ exists ua, base = userAgentTransport t ua).
Proof.
  intros Hp Hnew.
  destruct (NewWithContext_negotiated _ _ _ _ _ _ _ _ _ _ Hp Hnew) as [Hn _].
  exists (with_user_agent t). split; [exact Hn|].
  unfold with_user_agent.
  destruct (is_userAgentTransport t) eqn:Hua; simpl; repeat split; try done.
  by eexists.
Qed.

(** C9. [Wrapper.RoundTrip] is the [RoundTrip] of its inner transport:
    the same function, hence the same response, error and world for
    every request, whatever the inner transport is. *)
Theorem Wrapper_RoundTrip_delegates (inner : RoundTripper) :
  RoundTrip (Wrapper inner) = RoundTrip inner
  /\ (forall req w, RoundTrip (Wrapper inner) req w = RoundTrip inner req w)
  /\ (forall inner_RoundTrip : RoundTripFn,
        Wrapper_RoundTrip inner_RoundTrip = inner_RoundTrip).
Proof. repeat split; reflexivity. Qed.

(** C10. [NewWithContext] returns either a transport and no error, or
    an error and no transport. *)
Theorem NewWithContext_transport_xor_error reg auth t scopes w :
  let result := (NewWithContext reg auth t scopes w).1 in
  (is_Some result.1 /\ result.2 = None)
  \/ (result.1 = None /\ is_Some result.2).
Proof.
  unfold NewWithContext.
  destruct (ping reg t w) as [[pr|err] w1]; simpl; [|right; eauto].
  repeat case_decide; simpl; eauto.
  destruct (pr_parameters pr !! "realm") as [realm|]; simpl; [|right; eauto].
  unfold alloc_bearer.
  match goal with |- context [refresh ?b ?w2] =>
    destruct (refresh b w2) as [[err|] w3] end; simpl; eauto.
Qed.

End Properties.

(** * The claims on the scripted environment *)

Section Scripted.

Local Existing Instance Demo.env.

Import Demo.

Example MalformedChallenge_message :
  MalformedChallenge (pr_parameters Demo.probe_norealm)
  = "malformed www-authenticate, missing realm: map[scope:repository:foo:pull service:registry.example]"%string.
Proof. vm_compute. reflexivity. Qed.

Example basic_header_up : basic_header "u" "p" = "Basic dTpw"%string.
Proof. reflexivity. Qed.

Lemma NewWithContext_missing_realm_witness :
  NewWithContext (Demo.registry "norealm.example") 1%nat (External 0) pull calm
  = ((None, Some (MalformedChallenge (pr_parameters Demo.probe_norealm))), calm).
Proof.
  apply (NewWithContext_missing_realm (Demo.registry "norealm.example") 1%nat
           (External 0) pull calm Demo.probe_norealm calm);
    vm_compute; reflexivity.
Defined.

Lemma NewWithContext_seed_exchange_witness :
  let w := Demo.world [] [inl "abc"%string] in
  let out := NewWithContext (Demo.registry "bearer.example") 1%nat (External 0) pull w in
  exists treq,
    exchanges out.2 = exchanges w ++ [treq]
    /\ tr_realm treq = "https://auth.example/token"%string
    /\ tr_scopes treq = pull.
Proof.
  intros w out.
  refine (proj1 (NewWithContext_seed_exchange (Demo.registry "bearer.example")
                   1%nat (External 0) pull w Demo.probe_bearer w
                   "https://auth.example/token" _ _ _));
    vm_compute; reflexivity.
Defined.



Example bearer_RoundTrip_second_401 :
  let out := RoundTrip (bearerTransportPtr Demo.bt0) (Demo.get "/v2/")
               (Demo.world [inl (Demo.reply 401); inl (Demo.reply 401)]
                  [inl "abc"%string; inl "def"%string]) in
  out.1 = inl (Demo.reply 401)
  /\ length (Demo.sent (net out.2)) = 2%nat
  /\ length (exchanges out.2) = 1%nat
  /\ tokens out.2 !! 0%nat = Some (Some "abc"%string)
  /\ (fun r => ReqHeader r !! "Authorization"%string) <$> Demo.sent (net out.2)
     = [Some ["Bearer "%string]; Some ["Bearer abc"%string]].
Proof. vm_compute. repeat split; reflexivity. Qed.

Example bearer_RoundTrip_exchange_fails :
  let out := RoundTrip (bearerTransportPtr Demo.bt0) (Demo.get "/v2/")
               (Demo.world [inl (Demo.reply 401); inl (Demo.reply 200)] []) in
  out.1 = inr "token server unreachable"%string
  /\ length (Demo.sent (net out.2)) = 1%nat
  /\ length (exchanges out.2) = 1%nat.
Proof. vm_compute. repeat split; reflexivity. Qed.

Lemma NewWithContext_anonymous_witness :
  let reg := Demo.registry "open.example" in
  let rt := Wrapper (schemeTransport "https" reg
                       (userAgentTransport (External 0) "")) in
  NewWithContext reg 0%nat (External 0) pull calm = ((Some rt, None), calm)
  /\ forall req w0,
       let out := with_header "User-Agent" "" (with_scheme "https" req) in
       RoundTrip rt req w0 = RoundTrip (External 0) out w0
       /\ ReqHeader out !! "Authorization"%string
          = ReqHeader req !! "Authorization"%string
       /\ forall k, k <> "User-Agent"%string ->
                    ReqHeader out !! k = ReqHeader req !! k.
Proof.
  intros reg rt.
  apply (NewWithContext_anonymous_adds_no_authentication reg 0%nat (External 0)
           pull calm Demo.probe_open calm);
    vm_compute; reflexivity.
Defined.

Lemma NewWithContext_scheme_selected_witness :
  let reg := Demo.registry "plain.example" in
  let w := Demo.world [] [inl "abc"%string] in
  let out := NewWithContext reg 1%nat (External 0) pull w in
  exists rt, out.1.1 = Some rt
  /\ exists base,
    let sel := schemeTransport "http" reg base in
    negotiated sel rt
    /\ (forall req w0,
           RoundTrip sel req w0 = RoundTrip base (with_scheme "http" req) w0
           /\ URL_Scheme (with_scheme "http" req) = "http"%string)
    /\ (forall s req w0,
           RoundTrip rt (with_scheme s req) w0 = RoundTrip rt req w0).
Proof.
  intros reg w out.
  exists (Wrapper (bearerTransportPtr
                     (seed_transport reg 1%nat (External 0) pull
                        Demo.probe_plain "http://auth.example/token" w))).
  split; [vm_compute; reflexivity|].
  apply (NewWithContext_scheme_selected reg 1%nat (External 0) pull w
           Demo.probe_plain w _ None out.2);
    vm_compute; reflexivity.
Defined.

Example plain_scheme_on_the_wire :
  let reg := Demo.registry "plain.example" in
  let w := Demo.world [] [inl "abc"%string] in
  let out := NewWithContext reg 1%nat (External 0) pull w in
  match out.1.1 with
  | Some rt =>
      URL_Scheme <$> Demo.sent
        (net (RoundTrip rt (with_scheme "https" (Demo.get "/v2/")) out.2).2)
      = ["http"%string]
  | None => False
  end.
Proof. vm_compute. reflexivity. Qed.

Lemma NewWithContext_unrecognized_witness :
  NewWithContext (Demo.registry "digest.example") 1%nat (External 0) pull calm
  = ((None, Some (UnrecognizedChallenge "Digest")), calm).
Proof.
  apply (NewWithContext_unrecognized (Demo.registry "digest.example") 1%nat
           (External 0) pull calm Demo.probe_digest calm);
    vm_compute; first [reflexivity | discriminate].
Defined.

Lemma NewWithContext_bearer_service_witness :
  let reg := Demo.registry "plain.example" in
  let w := Demo.world [] [inl "abc"%string] in
  exists bt w2,
    (pr_parameters Demo.probe_plain !! "service"%string = None ->
     bt_service bt = "plain.example"%string)
    /\ (forall service,
           pr_parameters Demo.probe_plain !! "service"%string = Some service ->
           bt_service bt = service)
    /\ (bt_realm bt = "http://auth.example/token"%string
        /\ bt_scopes bt = pull /\ bt_basic bt = 1%nat
        /\ bt_registry bt = reg /\ bt_scheme bt = "http"%string
        /\ bt_inner bt
           = schemeTransport "http" reg (userAgentTransport (External 0) ""))
    /\ NewWithContext reg 1%nat (External 0) pull w
       = match refresh bt w2 with
         | (Some err, w3) => ((None, Some err), w3)
         | (None, w3) => ((Some (Wrapper (bearerTransportPtr bt)), None), w3)
         end.
Proof.
  intros reg w.
  apply (NewWithContext_bearer_service reg 1%nat (External 0) pull w
           Demo.probe_plain w "http://auth.example/token");
    vm_compute; reflexivity.
Defined.

Example bearer_service_default_and_given :
  bt_service (seed_transport (Demo.registry "plain.example") 1%nat (External 0)
                pull Demo.probe_plain "http://auth.example/token" calm)
  = "plain.example"%string
  /\ bt_service (seed_transport (Demo.registry "bearer.example") 1%nat
                   (External 0) pull Demo.probe_bearer
                   "https://auth.example/token" calm)
     = "registry.example"%string.
Proof. vm_compute. split; reflexivity. Qed.

Lemma NewWithContext_user_agent_once_witness :
  let reg := Demo.registry "basic.example" in
  let t := userAgentTransport (External 0) "crane/1.0" in
  let rt := Wrapper (basicTransport (schemeTransport "https" reg t) 1%nat
                       "basic.example") in
  exists base,
    negotiated (schemeTransport "https" reg base) rt
    /\ is_userAgentTransport base = true
    /\ (is_userAgentTransport t = true -> base = t)
    /\ (is_userAgentTransport t = false ->
        base = NewUserAgent t "" /\ exists ua, base = userAgentTransport t ua).
Proof.
  intros reg t rt.
  apply (NewWithContext_user_agent_once reg 1%nat t pull calm
           Demo.probe_basic calm rt None calm);
    vm_compute; reflexivity.
Defined.

End Scripted.

(** * Further properties of the negotiation *)

Section Negotiation.

Context `{Env}.

Implicit Types (reg : Registry) (auth : Authenticator) (t rt : RoundTripper).
Implicit Types (scopes : list string) (w : World Net) (pr : pingResp).

Lemma NewWithContext_not_bearer reg auth t scopes w pr w1 :
  ping reg t w = (inl pr, w1) ->
  Canonical (pr_challenge pr) <> bearer ->
  NewWithContext reg auth t scopes w
  = if decide (Canonical (pr_challenge pr) = anonymous) then
      ((Some (Wrapper (schemeTransport (pr_scheme pr) reg (with_user_agent t))),
        None), w1)
    else if decide (Canonical (pr_challenge pr) = basic) then
      ((Some (Wrapper
          (basicTransport
             (schemeTransport (pr_scheme pr) reg (with_user_agent t))
             auth (RegistryStr reg))), None), w1)
    else ((None, Some (UnrecognizedChallenge (pr_challenge pr))), w1).
Proof.
  intros Hp Hc. unfold NewWithContext. rewrite Hp.
  fold (with_user_agent t).
  by rewrite (decide_False (P := Canonical (pr_challenge pr) = bearer)).
Qed.

Lemma NewWithContext_bearer_seed reg auth t scopes w pr w1 realm :
  ping reg t w = (inl pr, w1) ->
  Canonical (pr_challenge pr) = bearer ->
  pr_parameters pr !! "realm" = Some realm ->
  NewWithContext reg auth t scopes w
  = match refresh (seed_transport reg auth t scopes pr realm w1)
            (alloc_bearer w1).2 with
    | (Some err, w3) => ((None, Some err), w3)
    | (None, w3) =>
        ((Some (Wrapper (bearerTransportPtr
                           (seed_transport reg auth t scopes pr realm w1))),
          None), w3)
    end.
Proof. intros Hp Hc Hr. exact (NewWithContext_bearer _ _ _ _ _ _ _ _ Hp Hc Hr). Qed.

Lemma NewWithContext_bearer_no_realm reg auth t scopes w pr w1 :
  ping reg t w = (inl pr, w1) ->
  Canonical (pr_challenge pr) = bearer ->
  pr_parameters pr !! "realm" = None ->
  NewWithContext reg auth t scopes w
  = ((None, Some (MalformedChallenge (pr_parameters pr))), w1).
Proof.
  intros Hp Hc Hr. unfold NewWithContext. rewrite Hp, Hr.
  repeat case_decide; try reflexivity; try contradiction.
  all: rewrite Hc in *; discriminate.
Qed.

(** X1. When the probe fails, [NewWithContext] and [New] return the
    probe's own error, no transport, and the world as the probe left
    it. *)
Theorem NewWithContext_probe_failure reg auth t scopes w err w1 :
  ping reg t w = (inr err, w1) ->
  NewWithContext reg auth t scopes w = ((None, Some err), w1)
  /\ New reg auth t scopes w = ((None, Some err), w1).
Proof.
  intros Hp. unfold New, NewWithContext. by rewrite Hp.
Qed.

(** X2. For a Basic challenge, whatever its parameters, the negotiation
    succeeds with the [Wrapper] around a Basic decorator that holds the
    supplied authenticator, the registry's [RegistryStr()] as target and
    the scheme selector as inner transport; the world is the one the
    probe left. *)
Theorem NewWithContext_basic_challenge reg auth t scopes w pr w1 :
  ping reg t w = (inl pr, w1) ->
  Canonical (pr_challenge pr) = basic ->
  exists base,
    NewWithContext reg auth t scopes w
    = ((Some (Wrapper
          (basicTransport (schemeTransport (pr_scheme pr) reg base)
             auth (RegistryStr reg))), None), w1)
    /\ is_userAgentTransport base = true
    /\ (base = t \/ base = NewUserAgent t "").
Proof.
  intros Hp Hc. exists (with_user_agent t).
  rewrite (NewWithContext_not_bearer _ _ _ _ _ _ _ Hp) by (rewrite Hc; discriminate).
  rewrite Hc. rewrite decide_False by discriminate. rewrite decide_True by done.
  split; [done|]. unfold with_user_agent.
  destruct (is_userAgentTransport t) eqn:Hua; auto.
Qed.

(** X3. Unless the challenge is a Bearer challenge with a realm, the
    negotiation leaves the world exactly as the probe left it: no token
    cell is allocated and no token exchange is issued. *)
Theorem NewWithContext_world_unchanged reg auth t scopes w pr w1 :
  ping reg t w = (inl pr, w1) ->
  Canonical (pr_challenge pr) <> bearer
  \/ pr_parameters pr !! "realm" = None ->
  (NewWithContext reg auth t scopes w).2 = w1.
Proof.
  intros Hp [Hc|Hr].
  - rewrite (NewWithContext_not_bearer _ _ _ _ _ _ _ Hp Hc).
    by repeat case_decide.
  - unfold NewWithContext. rewrite Hp, Hr. by repeat case_decide.
Qed.

(** X4. The scopes matter for a Bearer challenge only: for any other
    challenge two negotiations that differ in their scopes return the
    same. *)
Theorem NewWithContext_scopes_unused reg auth t scopes scopes' w pr w1 :
  ping reg t w = (inl pr, w1) ->
  Canonical (pr_challenge pr) <> bearer ->
  NewWithContext reg auth t scopes w = NewWithContext reg auth t scopes' w.
Proof.
  intros Hp Hc.
  by rewrite !(NewWithContext_not_bearer _ _ _ _ _ _ _ Hp Hc).
Qed.

(** X5. The authenticator matters for a Basic challenge and for a Bearer
    challenge with a realm only: in every other case two negotiations
    that differ in their authenticator return the same. *)
Theorem NewWithContext_authenticator_unused reg auth auth' t scopes w pr w1 :
  ping reg t w = (inl pr, w1) ->
  Canonical (pr_challenge pr) <> basic ->
  Canonical (pr_challenge pr) <> bearer
  \/ pr_parameters pr !! "realm" = None ->
  NewWithContext reg auth t scopes w = NewWithContext reg auth' t scopes w.
Proof.
  intros Hp Hb [Hc|Hr].
  - rewrite !(NewWithContext_not_bearer _ _ _ _ _ _ _ Hp Hc).
    repeat case_decide; try reflexivity; contradiction.
  - unfold NewWithContext. rewrite Hp, Hr.
    repeat case_decide; try reflexivity; contradiction.
Qed.

(** X6. A recognised challenge is dispatched on its canonical kind
    alone: two probes that find challenges of the same canonical kind,
    one of [none], [basic] and [bearer], with the same parameters and
    scheme, and leave the same world, lead to the same result. *)
Theorem NewWithContext_canonical_kind reg auth t scopes w w' pr pr' w1 :
  ping reg t w = (inl pr, w1) ->
  ping reg t w' = (inl pr', w1) ->
  Canonical (pr_challenge pr) = Canonical (pr_challenge pr') ->
  Canonical (pr_challenge pr) = anonymous
  \/ Canonical (pr_challenge pr) = basic
  \/ Canonical (pr_challenge pr) = bearer ->
  pr_parameters pr = pr_parameters pr' ->
  pr_scheme pr = pr_scheme pr' ->
  NewWithContext reg auth t scopes w = NewWithContext reg auth t scopes w'.
Proof.
  intros Hp Hp' Hc Hkind Hpar Hsch. unfold NewWithContext.
  rewrite Hp, Hp', <- Hc, <- Hpar, <- Hsch.
  repeat case_decide; try reflexivity.
  destruct Hkind as [?|[?|?]]; contradiction.
Qed.

(** X7. Where an error of the negotiation comes from: it is the probe's
    error, or the missing-realm error of a Bearer challenge without
    realm, or the unrecognised-challenge error of a challenge of no known
    kind, or the error of the seed refresh; the first three leave the
    world as the probe left it. *)
Theorem NewWithContext_error_origin reg auth t scopes w e w' :
  NewWithContext reg auth t scopes w = ((None, Some e), w') ->
  ping reg t w = (inr e, w')
  \/ (exists pr,
        ping reg t w = (inl pr, w')
        /\ Canonical (pr_challenge pr) = bearer
        /\ pr_parameters pr !! "realm" = None
        /\ e = MalformedChallenge (pr_parameters pr))
  \/ (exists pr,
        ping reg t w = (inl pr, w')
        /\ Canonical (pr_challenge pr) <> anonymous
        /\ Canonical (pr_challenge pr) <> basic
        /\ Canonical (pr_challenge pr) <> bearer
        /\ e = UnrecognizedChallenge (pr_challenge pr))
  \/ (exists pr w1 realm,
        ping reg t w = (inl pr, w1)
        /\ Canonical (pr_challenge pr) = bearer
        /\ pr_parameters pr !! "realm" = Some realm
        /\ refresh (seed_transport reg auth t scopes pr realm w1)
             (alloc_bearer w1).2 = (Some e, w')).
Proof.
  intros Hnew.
  destruct (ping reg t w) as [[pr|err] w1] eqn:Hp.
  - destruct (decide (Canonical (pr_challenge pr) = bearer)) as [Hc|Hc].
    + destruct (pr_parameters pr !! "realm") as [realm|] eqn:Hr.
      * rewrite (NewWithContext_bearer_seed _ _ _ _ _ _ _ _ Hp Hc Hr) in Hnew.
        destruct (refresh _ _) as [[err|] w3] eqn:Href; [|discriminate].
        injection Hnew as -> ->. right; right; right. by exists pr, w1, realm.
      * rewrite (NewWithContext_bearer_no_realm _ _ _ _ _ _ _ Hp Hc Hr) in Hnew.
        injection Hnew as <- <-. right; left. by exists pr.
    + rewrite (NewWithContext_not_bearer _ _ _ _ _ _ _ Hp Hc) in Hnew.
      repeat case_decide; try discriminate.
      injection Hnew as <- <-. right; right; left. by exists pr.
  - rewrite (NewWithContext_ping_error _ auth _ scopes _ _ _ Hp) in Hnew.
    injection Hnew as <- <-. by left.
Qed.

Lemma NewWithContext_success_ping reg auth t scopes w rt oerr w' :
  NewWithContext reg auth t scopes w = ((Some rt, oerr), w') ->
  exists pr w1, ping reg t w = (inl pr, w1).
Proof.
  intros Hnew. destruct (ping reg t w) as [[pr|err] w1] eqn:Hp; [by eauto|].
  rewrite (NewWithContext_ping_error _ auth _ scopes _ _ _ Hp) in Hnew.
  discriminate.
Qed.

(** X8. Where a transport comes from: the probe succeeded and found a
    challenge whose canonical kind is [none] or [basic], and the world is
    the one the probe left, or it found a Bearer challenge with a realm
    and the seed refresh of the decorator succeeded, leaving the world
    returned. *)
Theorem NewWithContext_success_origin reg auth t scopes w rt oerr w' :
  NewWithContext reg auth t scopes w = ((Some rt, oerr), w') ->
  exists pr w1,
    ping reg t w = (inl pr, w1)
    /\ ((Canonical (pr_challenge pr) = anonymous /\ w' = w1)
        \/ (Canonical (pr_challenge pr) = basic /\ w' = w1)
        \/ (Canonical (pr_challenge pr) = bearer
            /\ exists realm,
                 pr_parameters pr !! "realm" = Some realm
                 /\ rt = Wrapper (bearerTransportPtr
                                    (seed_transport reg auth t scopes pr realm w1))
                 /\ refresh (seed_transport reg auth t scopes pr realm w1)
                      (alloc_bearer w1).2 = (None, w'))).
Proof.
  intros Hnew.
  destruct (NewWithContext_success_ping _ _ _ _ _ _ _ _ Hnew) as (pr & w1 & Hp).
  exists pr, w1. split; [exact Hp|].
  destruct (decide (Canonical (pr_challenge pr) = bearer)) as [Hc|Hc].
  - right; right. split; [exact Hc|].
    destruct (pr_parameters pr !! "realm") as [realm|] eqn:Hr.
    + rewrite (NewWithContext_bearer_seed _ _ _ _ _ _ _ _ Hp Hc Hr) in Hnew.
      destruct (refresh _ _) as [[err|] w3] eqn:Href; [discriminate|].
      injection Hnew as <- _ <-. by exists realm.
    + rewrite (NewWithContext_bearer_no_realm _ _ _ _ _ _ _ Hp Hc Hr) in Hnew.
      discriminate.
  - rewrite (NewWithContext_not_bearer _ _ _ _ _ _ _ Hp Hc) in Hnew.
    repeat case_decide; try discriminate.
    + left. split; [done|]. by injection Hnew.
    + right; left. split; [done|]. by injection Hnew.
Qed.

(** X9. A transport returned by the negotiation is a [Wrapper], not a
    user-agent decorator, whatever the supplied transport was; so a
    second negotiation that is given it as its transport puts a new
    user-agent decorator around it. *)
Theorem NewWithContext_renegotiated
    reg auth t scopes w rt oerr w' reg2 auth2 scopes2 v pr2 v1 rt2 oerr2 v' :
  NewWithContext reg auth t scopes w = ((Some rt, oerr), w') ->
  ping reg2 rt v = (inl pr2, v1) ->
  NewWithContext reg2 auth2 rt scopes2 v = ((Some rt2, oerr2), v') ->
  (exists inner, rt = Wrapper inner)
  /\ is_userAgentTransport rt = false
  /\ negotiated (schemeTransport (pr_scheme pr2) reg2 (NewUserAgent rt "")) rt2.
Proof.
  intros Hnew Hp2 Hnew2.
  destruct (NewWithContext_success_ping _ _ _ _ _ _ _ _ Hnew) as (pr & w1 & Hp).
  destruct (NewWithContext_negotiated _ _ _ _ _ _ _ _ _ _ Hp Hnew) as [Hn _].
  destruct (NewWithContext_negotiated _ _ _ _ _ _ _ _ _ _ Hp2 Hnew2) as [Hn2 _].
  inversion Hn as [|a tg|bt Hin]; subst rt; (split; [by eexists|]);
    (split; [reflexivity|]); exact Hn2.
Qed.

(** X10. Any number of [Wrapper]s around a transport leaves its
    [RoundTrip] as it is. *)
Theorem Wrapper_nested (n : nat) t :
  RoundTrip (Nat.iter n Wrapper t) = RoundTrip t
  /\ forall req w, RoundTrip (Nat.iter n Wrapper t) req w = RoundTrip t req w.
Proof.
  assert (Hfn : RoundTrip (Nat.iter n Wrapper t) = RoundTrip t).
  { induction n as [|n IHn]; [reflexivity|]. exact IHn. }
  split; [exact Hfn|]. intros req w. by rewrite Hfn.
Qed.

End Negotiation.

(** X11. The two errors the negotiation builds itself cannot be mistaken
    for one another, and the unrecognised-challenge error determines the
    challenge it quotes. *)
Theorem negotiation_errors_distinct :
  (forall parameters c, MalformedChallenge parameters <> UnrecognizedChallenge c)
  /\ (forall c c', UnrecognizedChallenge c = UnrecognizedChallenge c' -> c = c').
Proof.
  split.
  - intros parameters c. unfold MalformedChallenge, UnrecognizedChallenge.
    discriminate.
  - intros c c' Heq. unfold UnrecognizedChallenge in Heq.
    by simplify_eq/=.
Qed.

(** * The further properties on the scripted environments *)

Section ScriptedNegotiation.

Local Existing Instance Demo.env.
Import Demo.

Lemma NewWithContext_probe_failure_witness :
  NewWithContext (registry "down.example") 1%nat (External 0) pull calm
  = ((None, Some "ping failed"%string), calm)
  /\ New (registry "down.example") 1%nat (External 0) pull calm
     = ((None, Some "ping failed"%string), calm).
Proof.
  apply (NewWithContext_probe_failure (registry "down.example") 1%nat
           (External 0) pull calm "ping failed" calm);
    vm_compute; reflexivity.
Defined.

Lemma NewWithContext_basic_challenge_witness :
  let reg := registry "basic.example" in
  exists base,
    NewWithContext reg 1%nat (External 0) pull calm
    = ((Some (Wrapper (basicTransport (schemeTransport "https" reg base)
                         1%nat "basic.example")), None), calm)
    /\ is_userAgentTransport base = true
    /\ (base = External 0 \/ base = NewUserAgent (External 0) "").
Proof.
  intros reg.
  apply (NewWithContext_basic_challenge reg 1%nat (External 0) pull calm
           probe_basic calm);
    vm_compute; reflexivity.
Defined.

Lemma NewWithContext_world_unchanged_witness :
  (NewWithContext (registry "norealm.example") 1%nat (External 0) pull
     (world [] [inl "abc"%string])).2
  = world [] [inl "abc"%string].
Proof.
  apply (NewWithContext_world_unchanged (registry "norealm.example") 1%nat
           (External 0) pull (world [] [inl "abc"%string]) probe_norealm);
    [vm_compute; reflexivity | right; vm_compute; reflexivity].
Defined.

Lemma NewWithContext_scopes_unused_witness :
  NewWithContext (registry "basic.example") 1%nat (External 0) pull calm
  = NewWithContext (registry "basic.example") 1%nat (External 0) [] calm.
Proof.
  apply (NewWithContext_scopes_unused (registry "basic.example") 1%nat
           (External 0) pull [] calm probe_basic calm);
    vm_compute; first [reflexivity | discriminate].
Defined.

Lemma NewWithContext_authenticator_unused_witness :
  NewWithContext (registry "open.example") 0%nat (External 0) pull calm
  = NewWithContext (registry "open.example") 1%nat (External 0) pull calm.
Proof.
  apply (NewWithContext_authenticator_unused (registry "open.example") 0%nat
           1%nat (External 0) pull calm probe_open calm);
    [vm_compute; reflexivity | vm_compute; discriminate
    | left; vm_compute; discriminate].
Defined.

Lemma NewWithContext_renegotiated_witness :
  let t := userAgentTransport (External 0) "crane/1.0" in
  let reg := registry "open.example" in
  let reg2 := registry "basic.example" in
  let rt := Wrapper (schemeTransport "https" reg t) in
  let rt2 := Wrapper (basicTransport
                        (schemeTransport "https" reg2 (NewUserAgent rt ""))
                        1%nat "basic.example") in
  (exists inner, rt = Wrapper inner)
  /\ is_userAgentTransport rt = false
  /\ negotiated (schemeTransport "https" reg2 (NewUserAgent rt "")) rt2.
Proof.
  intros t reg reg2 rt rt2.
  apply (NewWithContext_renegotiated reg 0%nat t pull calm rt None calm
           reg2 1%nat pull calm probe_basic calm rt2 None calm);
    vm_compute; reflexivity.
Defined.

Example renegotiated_result :
  let t := userAgentTransport (External 0) "crane/1.0" in
  let rt := Wrapper (schemeTransport "https" (registry "open.example") t) in
  NewWithContext (registry "open.example") 0%nat t pull calm
  = ((Some rt, None), calm)
  /\ NewWithContext (registry "basic.example") 1%nat rt pull calm
     = ((Some (Wrapper (basicTransport
                          (schemeTransport "https" (registry "basic.example")
                             (userAgentTransport rt ""))
                          1%nat "basic.example")), None), calm).
Proof. vm_compute. split; reflexivity. Qed.

Lemma NewWithContext_error_origin_witness :
  let reg := registry "bearer.example" in
  let e : error := "token server unreachable"%string in
  let w' := (NewWithContext reg 1%nat (External 0) pull calm).2 in
  ping reg (External 0) calm = (inr e, w')
  \/ (exists pr,
        ping reg (External 0) calm = (inl pr, w')
        /\ Canonical (pr_challenge pr) = bearer
        /\ pr_parameters pr !! "realm"%string = None
        /\ e = MalformedChallenge (pr_parameters pr))
  \/ (exists pr,
        ping reg (External 0) calm = (inl pr, w')
        /\ Canonical (pr_challenge pr) <> anonymous
        /\ Canonical (pr_challenge pr) <> basic
        /\ Canonical (pr_challenge pr) <> bearer
        /\ e = UnrecognizedChallenge (pr_challenge pr))
  \/ (exists pr w1 realm,
        ping reg (External 0) calm = (inl pr, w1)
        /\ Canonical (pr_challenge pr) = bearer
        /\ pr_parameters pr !! "realm"%string = Some realm
        /\ refresh (seed_transport reg 1%nat (External 0) pull pr realm w1)
             (alloc_bearer w1).2 = (Some e, w')).
Proof.
  intros reg e w'.
  apply (NewWithContext_error_origin reg 1%nat (External 0) pull calm e w').
  vm_compute. reflexivity.
Defined.

Lemma NewWithContext_success_origin_witness :
  let reg := registry "bearer.example" in
  let w := world [] [inl "abc"%string] in
  let rt := Wrapper (bearerTransportPtr
                       (seed_transport reg 1%nat (External 0) pull probe_bearer
                          "https://auth.example/token" w)) in
  let w' := (NewWithContext reg 1%nat (External 0) pull w).2 in
  exists pr w1,
    ping reg (External 0) w = (inl pr, w1)
    /\ ((Canonical (pr_challenge pr) = anonymous /\ w' = w1)
        \/ (Canonical (pr_challenge pr) = basic /\ w' = w1)
        \/ (Canonical (pr_challenge pr) = bearer
            /\ exists realm,
                 pr_parameters pr !! "realm"%string = Some realm
                 /\ rt = Wrapper (bearerTransportPtr
                                    (seed_transport reg 1%nat (External 0) pull
                                       pr realm w1))
                 /\ refresh (seed_transport reg 1%nat (External 0) pull pr
                               realm w1)
                      (alloc_bearer w1).2 = (None, w'))).
Proof.
  intros reg w rt w'.
  apply (NewWithContext_success_origin reg 1%nat (External 0) pull w rt None w').
  vm_compute. reflexivity.
Defined.

End ScriptedNegotiation.

Section Replayed.

Local Existing Instance Replay.env.

Lemma NewWithContext_canonical_kind_witness :
  let reg := Demo.registry "bearer.example" in
  NewWithContext reg 1%nat (External 0) Demo.pull
    (Replay.world [Demo.probe_bearer])
  = NewWithContext reg 1%nat (External 0) Demo.pull
      (Replay.world [Replay.probe_shouting]).
Proof.
  intros reg.
  apply (NewWithContext_canonical_kind reg 1%nat (External 0) Demo.pull
           (Replay.world [Demo.probe_bearer])
           (Replay.world [Replay.probe_shouting])
           Demo.probe_bearer Replay.probe_shouting (Replay.world []));
    try (vm_compute; reflexivity).
  right; right. vm_compute. reflexivity.
Defined.

Example replayed_digest_unrecognised :
  (NewWithContext (Demo.registry "x") 1%nat (External 0) Demo.pull
     (Replay.world [Demo.probe_digest])).1
  = (None, Some "unrecognized challenge: Digest"%string).
Proof. vm_compute. reflexivity. Qed.

End Replayed.
